(** * Gender classifier based on pitch (app.py): model and verification

    The Streamlit script reads a threshold from a sidebar slider, records a
    voice sample, hands the decoded samples to [librosa.yin], averages the
    pitch track with [np.nanmean] and compares the mean with the threshold.

    The script is embedded as a state-and-exception monad over Streamlit's
    [st.session_state]; Python floats are IEEE binary64 numbers
    ([spec_float] with 53 bits of precision); the third-party decoder and
    pitch tracker are fields of a record of library functions. *)

From Stdlib Require Import ZArith QArith Floats.SpecFloat Strings.Byte.
From stdpp Require Import base gmap strings list.

(** ** Python floats: IEEE binary64 *)

Definition float64 : Type := spec_float.

Module F64.

Definition add : float64 → float64 → float64 := SFadd 53 1024.

Definition div : float64 → float64 → float64 := SFdiv 53 1024.

(** Conversion of a Python int, round to nearest even. *)
Definition of_Z (z : Z) : float64 := binary_normalize 53 1024 z 0 false.

(** [float("nan")] *)
Definition nan : float64 := S754_nan.

Definition zero : float64 := S754_zero false.

Definition is_nan (x : float64) : bool :=
  match x with S754_nan => true | _ => false end.

Definition is_inf (x : float64) : bool :=
  match x with S754_infinity _ => true | _ => false end.

(** The rational number a zero or finite float stands for. *)
Definition to_Q (x : float64) : Q :=
  match x with
  | S754_finite s m e =>
      let v := cond_Zopp s (Zpos m) in
      if (0 <=? e)%Z then inject_Z (v * 2 ^ e) else v # (2 ^ Z.to_pos (- e))
  | _ => 0%Q
  end.

(** Python compares a float with an int by their exact values
    (no rounding of the int). *)
Definition cmp_int (x : float64) (n : Z) : option comparison :=
  match x with
  | S754_nan => None
  | S754_infinity s => Some (if s then Lt else Gt)
  | S754_zero _ => Some (0 ?= n)%Z
  | S754_finite s m e =>
      let v := cond_Zopp s (Zpos m) in
      Some (if (0 <=? e)%Z then (v * 2 ^ e ?= n)%Z else (v ?= n * 2 ^ (- e))%Z)
  end.


End F64.

(** ** Python values, exceptions and the script monad *)

(** pydub's [AudioSegment]: its length in milliseconds (what [len] and
    truthiness look at) and the bytes [export(format="wav")] writes. *)
Record AudioSegment := { seg_len : Z; seg_wav : list byte }.

Inductive pyval :=
| PyInt (n : Z)
| PyFloat (x : float64)
| PySegment (a : AudioSegment).

(** Arrays as [sf.read] returns them: one dimension for a mono file, frames
    by channels for a file with several channels. *)
Inductive ndarray :=
| Array1 (samples : list float64)
| Array2 (frames : list (list float64)).

(** A raised exception: the name of its class, and whether the class derives
    from [Exception] or from [BaseException] only. *)
Inductive exn :=
| ExceptionOf (cls : string)
| BaseExceptionOf (cls : string).

(** [isinstance(e, Exception)] *)
Definition isinstance_Exception (e : exn) : bool :=
  match e with
  | ExceptionOf _ => true
  | BaseExceptionOf _ => false
  end.

Definition ParameterError : exn := ExceptionOf "ParameterError".
Definition TypeError : exn := ExceptionOf "TypeError".
Definition ZeroDivisionError : exn := ExceptionOf "ZeroDivisionError".
Definition StreamlitAPIException : exn := ExceptionOf "StreamlitAPIException".
Definition KeyboardInterrupt : exn := BaseExceptionOf "KeyboardInterrupt".

(** The signal [st.experimental_rerun] stops the script with. *)
Definition RerunException : exn := BaseExceptionOf "RerunException".

Inductive outcome (A : Type) :=
| Return (a : A)
| Raise (e : exn).
Arguments Return {A} a.
Arguments Raise {A} e.

(** A script step reads and writes [st.session_state]; what it wrote stays
    written when it raises. *)
Definition script (A : Type) : Type :=
  gmap string pyval → gmap string pyval * outcome A.

#[global] Instance script_ret : MRet script := λ A a ss, (ss, Return a).

#[global] Instance script_bind : MBind script := λ A B k m ss,
  match m ss with
  | (ss', Return a) => k a ss'
  | (ss', Raise e) => (ss', Raise e)
  end.

Definition raise {A} (e : exn) : script A := λ ss, (ss, Raise e).

Definition lift {A} (r : outcome A) : script A := λ ss, (ss, r).

(** [try: body / except Exception: handler] *)
Definition try_except_Exception {A} (body handler : script A) : script A := λ ss,
  match body ss with
  | (ss', Raise e) => if isinstance_Exception e then handler ss' else (ss', Raise e)
  | r => r
  end.

(** [st.session_state.get(key, dflt)] *)
Definition ss_get (key : string) (dflt : pyval) : script pyval := λ ss,
  (ss, Return (default dflt (ss !! key))).

(** [st.session_state[key] = v] *)
Definition ss_set (key : string) (v : pyval) : script unit := λ ss,
  (<[key := v]> ss, Return tt).

(** [st.session_state.pop(key, None)] *)
Definition ss_pop (key : string) : script unit := λ ss,
  (delete key ss, Return tt).

(** [key in st.session_state] *)
Definition ss_contains (key : string) : script bool := λ ss,
  (ss, Return (bool_decide (is_Some (ss !! key)))).

(** ** NumPy *)

Module np.

Definition isnan (x : float64) : bool := F64.is_nan x.

(** The eight running sums of a block: [r[j] += a[i + j]] for each further
    group of eight entries; returned with the entries not yet added. *)
Fixpoint add_lanes (groups : nat) (r a : list float64)
  : list float64 * list float64 :=
  match groups with
  | O => (r, a)
  | S groups => add_lanes groups (zip_with F64.add r (take 8 a)) (drop 8 a)
  end.

(** [((r[0] + r[1]) + (r[2] + r[3])) + ((r[4] + r[5]) + (r[6] + r[7]))] *)
Definition fold_lanes (r : list float64) : float64 :=
  match r with
  | [r0; r1; r2; r3; r4; r5; r6; r7] =>
      F64.add (F64.add (F64.add r0 r1) (F64.add r2 r3))
              (F64.add (F64.add r4 r5) (F64.add r6 r7))
  | _ => F64.zero
  end.

(** A block of 8 to 128 entries: eight running sums over the groups of
    eight, folded in pairs, then the entries beyond the last full group one
    by one. *)
Definition block_sum (a : list float64) : float64 :=
  let '(r, rest) := add_lanes (length a / 8 - 1) (take 8 a) (drop 8 a) in
  fold_left F64.add rest (fold_lanes r).

(** NumPy's pairwise summation of a float array: fewer than 8 entries are
    added one by one, up to 128 entries as a block, and a longer array is
    cut in two at a multiple of eight near its middle. [fuel] bounds the
    depth of the halving; the length of the array is always enough
    ([pairwise_sum_fuel] below), so the branch without fuel is not reached. *)
Fixpoint pairwise_sum (fuel : nat) (a : list float64) : float64 :=
  let n := length a in
  if n <? 8 then fold_left F64.add a F64.zero
  else if n <=? 128 then block_sum a
  else match fuel with
       | O => block_sum a
       | S fuel =>
           let n2 := n / 2 - (n / 2) mod 8 in
           F64.add (pairwise_sum fuel (take n2 a)) (pairwise_sum fuel (drop n2 a))
       end.

(** [np.sum] of a float array ([np.add.reduce]): the identity 0.0 plus the
    pairwise sum of the entries. The sign of the zeros that start the
    reduction and the short loop can show only in the sign of a zero
    total. *)
Definition sum (a : list float64) : float64 :=
  F64.add F64.zero (pairwise_sum (length a) a).

(** [np.sum(~mask)]: how many entries are not NaN. *)
Definition count_valid (a : list float64) : Z :=
  fold_left (λ c x, if isnan x then c else (c + 1)%Z) a 0%Z.

(** [np.nanmean]: NaN entries are replaced by zero, the array is summed and
    the total is divided by the number of entries that were not NaN; a slice
    with no such entry gives 0/0. *)
Definition nanmean (a : list float64) : float64 :=
  let arr := map (λ x, if isnan x then F64.zero else x) a in
  let cnt := count_valid a in
  let tot := sum arr in
  F64.div tot (F64.of_Z cnt).

(** [np.mean] *)
Definition mean (a : list float64) : float64 :=
  F64.div (sum a) (F64.of_Z (Z.of_nat (length a))).

End np.

(** ** Streamlit widgets *)

Module st.

(** [st.slider] with integer arguments. The widget widens its bounds so
    that they contain [value]. [ui] is the widget state this run finds for
    the slider it creates: [None] when there is none, and then the slider
    returns [value]; that is so in a fresh session, and also when the
    browser's last move addressed a slider of another identity (the slider
    has no key, so its identity follows [value], and a move made right
    after [value] changed is dropped). [Some u] is a position held for this
    very slider; the rendered widget offers only positions within its bounds
    and on whole steps from the lower bound, which is how [u] is read.
    Arguments of other types are refused. *)
Definition slider (min_value max_value value step : pyval) (ui : option Z)
  : outcome pyval :=
  match min_value, max_value, value, step with
  | PyInt lo, PyInt hi, PyInt v, PyInt stp =>
      let lo' := Z.min v (Z.min lo hi) in
      let hi' := Z.max v (Z.max lo hi) in
      match ui with
      | None => Return (PyInt v)
      | Some u =>
          let c := Z.max lo' (Z.min hi' u) in
          Return (PyInt (lo' + stp * ((c - lo') / stp)))
      end
  | _, _, _, _ => Raise StreamlitAPIException
  end.

End st.

(** ** The third-party audio functions

    [sf.read] decodes a WAV byte stream into samples and a sample rate;
    [librosa.yin] returns the pitch track of its buffer. Either may raise. *)
Record Libs := {
  sf_read : list byte → outcome (ndarray * Z);
  librosa_yin : ndarray → Z → Z → Z → outcome (list float64)
}.

(** ** The script *)

Inductive Label := Female | Male | Undetermined.

(** What the Results tab shows: the hint to record first, the "could not
    detect pitch" error, or the two metrics and the threshold used. *)
Inductive results_view :=
| NoRecording
| CouldNotDetect
| Metrics (mean_pitch : float64) (gender : Label) (threshold : pyval).

(** One run of the script is driven by the state of the three widgets:
    the widget state found for the slider, the recorder's value and whether
    the button was clicked. *)
Record Inputs := {
  slider_ui : option Z;
  recorded : AudioSegment;
  button_clicked : bool
}.

(** Sidebar, lines 50-59. *)
Definition sidebar (ui : option Z) : script pyval :=
  default_threshold ← ss_get "threshold" (PyInt 165);
  threshold ← lift (st.slider (PyInt 50) (PyInt 300) default_threshold (PyInt 1) ui);
  ss_set "threshold" threshold;;
  mret threshold.

(** The recorder component registers its value under its key. *)
Definition audiorecorder (key : string) (rec : AudioSegment) : script AudioSegment :=
  ss_set key (PySegment rec);;
  mret rec.

(** Truth value of an [AudioSegment]: its length is not zero. *)
Definition truthy (a : AudioSegment) : bool := negb (seg_len a =? 0)%Z.

(** Record tab, line 79 (the playback widget only displays). The runs
    modelled are those in which the recorder component and the WAV export
    return. *)
Definition record_tab (rec : AudioSegment) : script AudioSegment :=
  audiorecorder "gender_sample" rec.

(** Lines 102-106. *)
Definition estimate_mean_pitch (L : Libs) (data : ndarray) (fs : Z) : script float64 :=
  try_except_Exception
    (f0 ← lift (librosa_yin L data 50 500 fs);
     mret (np.nanmean f0))
    (mret F64.nan).

(** [mean_pitch > threshold] *)
Definition py_gt (mean_pitch : float64) (threshold : pyval) : outcome bool :=
  match threshold with
  | PyInt n => Return (match F64.cmp_int mean_pitch n with Some Gt => true | _ => false end)
  | PyFloat y => Return (SFltb y mean_pitch)
  | PySegment _ => Raise TypeError
  end.

(** Lines 108-111; [Undetermined] is the branch that reports "could not
    detect pitch" and assigns no gender. *)
Definition classify (mean_pitch : float64) (threshold : pyval) : outcome Label :=
  if np.isnan mean_pitch then Return Undetermined
  else match py_gt mean_pitch threshold with
       | Return b => Return (if b then Female else Male)
       | Raise e => Raise e
       end.

(** Results tab, lines 88-121. *)
Definition results_tab (L : Libs) (threshold : pyval) (wav_bytes : AudioSegment)
    (button : bool) : script results_view :=
  has_sample ← ss_contains "gender_sample";
  if negb has_sample || negb (truthy wav_bytes) then mret NoRecording
  else
    '(data, fs) ← lift (sf_read L (seg_wav wav_bytes));
    mean_pitch ← estimate_mean_pitch L data fs;
    label ← lift (classify mean_pitch threshold);
    match label with
    | Undetermined => mret CouldNotDetect
    | gender =>
        (if button then ss_pop "gender_sample";; raise RerunException else mret tt);;
        mret (Metrics mean_pitch gender threshold)
    end.

Definition app (L : Libs) (inp : Inputs) : script results_view :=
  threshold ← sidebar (slider_ui inp);
  wav_bytes ← record_tab (recorded inp);
  results_tab L threshold wav_bytes (button_clicked inp).

(** The session state after a history of runs, most recent first; a fresh
    session starts from the empty state. *)
Fixpoint session (L : Libs) (history : list Inputs) : gmap string pyval :=
  match history with
  | [] => ∅
  | inp :: earlier => fst (app L inp (session L earlier))
  end.

(** ** Vocabulary of the statements *)

Abbreviation is_number x := (np.isnan x = false).

(** [x] is strictly greater than the integer [n], as numbers. *)
Definition exceeds (x : float64) (n : Z) : Prop :=
  match x with
  | S754_nan => False
  | S754_infinity s => s = false
  | _ => (inject_Z n < F64.to_Q x)%Q
  end.

(** [x] is less than or equal to the integer [n], as numbers. *)
Definition at_most (x : float64) (n : Z) : Prop :=
  match x with
  | S754_nan => False
  | S754_infinity s => s = true
  | _ => (F64.to_Q x <= inject_Z n)%Q
  end.

(** What the sidebar may have stored under ["threshold"]. *)
Definition threshold_ok (ss : gmap string pyval) : Prop :=
  match ss !! "threshold" with
  | None => True
  | Some (PyInt v) => (50 ≤ v ≤ 300)%Z
  | Some _ => False
  end.

(** Downmix as the specification words it: a file with several channels
    becomes the mono stream of the per-frame channel averages. *)
Definition downmix (data : ndarray) : ndarray :=
  match data with
  | Array1 _ => data
  | Array2 frames => Array1 (map np.mean frames)
  end.

(** A frequency in Hz: a number that is not negative. *)
Definition nonneg (x : float64) : bool :=
  match x with
  | S754_nan => false
  | S754_zero _ => true
  | S754_infinity s | S754_finite s _ _ => negb s
  end.

(** An entry of a pitch track: an unvoiced frame (NaN) or a frequency. *)
Definition nan_or_nonneg (x : float64) : bool := np.isnan x || nonneg x.

(** The exact sum of whole numbers. *)
Definition total (ks : list Z) : Z := foldr Z.add 0%Z ks.


(** A frame of a pitch track in whole Hz: unvoiced, or [k] Hz. *)
Definition hz (o : option N) : float64 :=
  match o with
  | Some k => F64.of_Z (Z.of_N k)
  | None => F64.nan
  end.



(** ** Sample library behaviours and inputs *)

Definition sample : AudioSegment := {| seg_len := 5000; seg_wav := [] |}.

Definition fresh_run : Inputs :=
  {| slider_ui := None; recorded := sample; button_clicked := false |}.

Definition moved_run : Inputs :=
  {| slider_ui := Some 120%Z; recorded := sample; button_clicked := false |}.

(** A tracker that finds 200 Hz, an unvoiced frame and 100 Hz. *)
Definition steady_libs : Libs :=
  {| sf_read := λ _, Return (Array1 [F64.zero], 44100%Z);
     librosa_yin := λ _ _ _ _, Return [F64.of_Z 200; F64.nan; F64.of_Z 100] |}.

(** A tracker that fails with a numerical error. *)
Definition failing_libs : Libs :=
  {| sf_read := λ _, Return (Array1 [F64.zero], 44100%Z);
     librosa_yin := λ _ _ _ _, Raise ZeroDivisionError |}.

(** A two-channel file with one frame, and a tracker whose answer tells how
    many dimensions the buffer it was given has. *)
Definition stereo_frame : ndarray := Array2 [[F64.of_Z 1; F64.of_Z 3]].

Definition shape_probe : Libs :=
  {| sf_read := λ _, Return (stereo_frame, 44100%Z);
     librosa_yin := λ y _ _ _,
       match y with
       | Array1 _ => Return [F64.of_Z 100]
       | Array2 _ => Return [F64.of_Z 400]
       end |}.

(** The track of [steady_libs] and its voiced frames, in whole Hz. *)
Definition steady_frames : list (option N) := [Some 200; None; Some 100]%N.




(** The largest finite float and its opposite. *)
Definition max_float : float64 := S754_finite false 9007199254740991 971.

Definition min_float : float64 := S754_finite true 9007199254740991 971.

(** Sixteen finite entries of both signs; the first two running sums of
    the block overflow to opposite infinities. *)
Definition opposite_lanes : list float64 :=
  [max_float; min_float; F64.zero; F64.zero; F64.zero; F64.zero; F64.zero; F64.zero;
   max_float; min_float; F64.zero; F64.zero; F64.zero; F64.zero; F64.zero; F64.zero].

(** ** Vocabulary of the further properties *)

(** The threshold a run works with: the position held for the run's slider
    (within 50 and 300), or else what an earlier run stored, or else 165. *)
Definition chosen_threshold (ui : option Z) (ss : gmap string pyval) : Z :=
  match ui with
  | Some u => Z.max 50 (Z.min 300 u)
  | None => match ss !! "threshold" with Some (PyInt v) => v | _ => 165%Z end
  end.

(** The session state once the sidebar and the recorder have run. *)
Definition registered (inp : Inputs) (ss : gmap string pyval) : gmap string pyval :=
  <["gender_sample" := PySegment (recorded inp)]>
    (<["threshold" := PyInt (chosen_threshold (slider_ui inp) ss)]> ss).

Definition LibsndfileError : exn := ExceptionOf "LibsndfileError".

(** A decoder that rejects every file. *)
Definition broken_decoder_libs : Libs :=
  {| sf_read := λ _, Raise LibsndfileError;
     librosa_yin := λ _ _ _ _, Return [F64.of_Z 200] |}.

(** A tracker that answers as [steady_libs] does for the range 50 to 500 Hz
    and refuses every other range. *)
Definition picky_libs : Libs :=
  {| sf_read := λ _, Return (Array1 [F64.zero], 44100%Z);
     librosa_yin := λ _ fmin fmax _,
       if (fmin =? 50)%Z && (fmax =? 500)%Z
       then Return [F64.of_Z 200; F64.nan; F64.of_Z 100]
       else Raise ParameterError |}.

Definition empty_recording : AudioSegment := {| seg_len := 0; seg_wav := [] |}.

(** A run before anything was recorded. *)
Definition idle_run : Inputs :=
  {| slider_ui := None; recorded := empty_recording; button_clicked := false |}.

(** A run in which "Record Another Sample" was clicked. *)
Definition click_run : Inputs :=
  {| slider_ui := None; recorded := sample; button_clicked := true |}.

(** * Verification *)

(** ** Comparison of a float with an int *)

Lemma pow_to_pos (e : Z) : (e < 0)%Z → Zpos (2 ^ Z.to_pos (- e)) = (2 ^ (- e))%Z.
Proof.
  intros He. rewrite Pos2Z.inj_pow, Z2Pos.id by lia. reflexivity.
Qed.

Lemma cmp_int_Qcompare (x : float64) (n : Z) :
  F64.is_nan x = false → F64.is_inf x = false →
  F64.cmp_int x n = Some (F64.to_Q x ?= inject_Z n)%Q.
Proof.
  destruct x as [s| s | | s m e]; try discriminate; intros _ _; simpl.
  - unfold Qcompare; simpl. by rewrite Z.mul_1_r.
  - destruct (Z.leb_spec 0 e) as [He|He]; unfold Qcompare; simpl.
    + by rewrite !Z.mul_1_r.
    + by rewrite Z.mul_1_r, pow_to_pos.
Qed.

Lemma classify_number (x : float64) (n : Z) :
  F64.is_nan x = false →
  classify x (PyInt n) =
    Return (match F64.cmp_int x n with Some Gt => Female | _ => Male end).
Proof.
  intros Hx. unfold classify, np.isnan. rewrite Hx. simpl.
  by destruct (F64.cmp_int x n) as [[]|].
Qed.

Lemma classify_nan (threshold : pyval) :
  classify F64.nan threshold = Return Undetermined.
Proof. done. Qed.

(** C1: for every mean pitch and every integer threshold, the label is
    Female exactly when the mean pitch is a number strictly greater than the
    threshold, Male exactly when it is a number less than or equal to the
    threshold (so the boundary is Male), Undetermined exactly when it is
    NaN; the classification always returns a label. *)
Theorem classify_label (mean_pitch : float64) (threshold : Z) :
  (classify mean_pitch (PyInt threshold) = Return Female
     ↔ is_number mean_pitch ∧ exceeds mean_pitch threshold) ∧
  (classify mean_pitch (PyInt threshold) = Return Male
     ↔ is_number mean_pitch ∧ at_most mean_pitch threshold) ∧
  (classify mean_pitch (PyInt threshold) = Return Undetermined
     ↔ np.isnan mean_pitch = true) ∧
  (∃ label, classify mean_pitch (PyInt threshold) = Return label).
Proof.
  unfold np.isnan.
  destruct (F64.is_nan mean_pitch) eqn:Hnan.
  - destruct mean_pitch; try discriminate. simpl.
    repeat split; try (intros [? ?]); try done. by eexists.
  - rewrite (classify_number _ _ Hnan).
    destruct (F64.is_inf mean_pitch) eqn:Hinf.
    + destruct mean_pitch as [|[]| |]; try discriminate; simpl;
        repeat split; try (intros [? ?]); try done; by eexists.
    + rewrite (cmp_int_Qcompare _ _ Hnan Hinf).
      assert (Hx : exceeds mean_pitch threshold
                   ↔ (F64.to_Q mean_pitch ?= inject_Z threshold)%Q = Gt).
      { destruct mean_pitch; try discriminate; simpl; by rewrite Qgt_alt. }
      assert (Hm : at_most mean_pitch threshold
                   ↔ (F64.to_Q mean_pitch ?= inject_Z threshold)%Q ≠ Gt).
      { destruct mean_pitch; try discriminate; simpl; by rewrite Qle_alt. }
      rewrite Hx, Hm.
      destruct (F64.to_Q mean_pitch ?= inject_Z threshold)%Q;
        repeat split; try (intros [? ?]); try done; by eexists.
Qed.

(** The boundary cases the specification lists: 165.0 against 165 is Male,
    the next float above 165.0 is Female, NaN is Undetermined. *)
Example classify_boundary :
  classify (F64.of_Z 165) (PyInt 165) = Return Male
  ∧ classify (SFsucc 53 1024 (F64.of_Z 165)) (PyInt 165) = Return Female
  ∧ classify F64.nan (PyInt 165) = Return Undetermined.
Proof. by vm_compute. Qed.

(** ** Rounding never invents a NaN *)

Section Rounding.
Variables prec emax : Z.

Lemma shr_1_nonneg mrs : (0 ≤ shr_m mrs)%Z → (0 ≤ shr_m (shr_1 mrs))%Z.
Proof. destruct mrs as [[|[p|p|]|[p|p|]] r s]; simpl; lia. Qed.

Lemma iter_pos_invariant {A} (P : A → Prop) (f : A → A) :
  (∀ x, P x → P (f x)) → ∀ p x, P x → P (SpecFloat.iter_pos f p x).
Proof.
  intros Hf. induction p as [p IH|p IH|]; intros x Hx; simpl; auto.
Qed.

Lemma shr_nonneg mrs e n :
  (0 ≤ shr_m mrs)%Z → (0 ≤ shr_m (fst (shr mrs e n)))%Z.
Proof.
  intros H. destruct n; simpl; auto.
  by apply (iter_pos_invariant (λ r, 0 ≤ shr_m r)%Z), H; apply shr_1_nonneg.
Qed.

Lemma shr_fexp_nonneg m e l :
  (0 ≤ m)%Z → (0 ≤ shr_m (fst (shr_fexp prec emax m e l)))%Z.
Proof.
  intros H. unfold shr_fexp. apply shr_nonneg.
  by destruct l as [|[]].
Qed.

Lemma round_nearest_even_nonneg m l :
  (0 ≤ m)%Z → (0 ≤ round_nearest_even m l)%Z.
Proof.
  intros H. destruct l as [|[]]; simpl; try lia. destruct (Z.even m); lia.
Qed.

Lemma binary_round_aux_not_nan s m e l :
  (0 ≤ m)%Z → binary_round_aux prec emax s m e l ≠ S754_nan.
Proof.
  intros H. unfold binary_round_aux.
  pose proof (shr_fexp_nonneg m e l H) as H1.
  destruct (shr_fexp prec emax m e l) as [mrs' e']. simpl in H1.
  pose proof (shr_fexp_nonneg _ e' loc_Exact
                (round_nearest_even_nonneg _ (loc_of_shr_record mrs') H1)) as H2.
  destruct (shr_fexp prec emax _ e' loc_Exact) as [mrs'' e'']. simpl in H2.
  destruct (shr_m mrs''); try lia; try done.
  by destruct (_ <=? _)%Z.
Qed.


End Rounding.

Lemma div_not_nan (x : float64) (s : bool) (m : positive) (e : Z) :
  F64.is_nan x = false → F64.is_nan (F64.div x (S754_finite s m e)) = false.
Proof.
  destruct x as [sx|sx| |sx mx ex]; try done. intros _.
  unfold F64.div, SFdiv.
  destruct (SFdiv_core_binary 53 1024 (Zpos mx) ex (Zpos m) e) as [[mz ez] lz] eqn:E.
  assert (0 ≤ mz)%Z as Hmz.
  { unfold SFdiv_core_binary in E.
    set (m' := match _ with Z0 => Zpos mx | Zpos _ => _ | Zneg _ => 0%Z end) in E.
    assert (0 ≤ m')%Z as Hm'.
    { subst m'. destruct (_ - _ - _)%Z; try lia. by apply Z.shiftl_nonneg. }
    pose proof (Z.div_pos m' (Zpos m) Hm' eq_refl) as Hq.
    unfold Z.div in Hq. destruct (Z.div_eucl m' (Zpos m)) as [q r].
    by inversion E; subst. }
  pose proof (binary_round_aux_not_nan 53 1024 (xorb sx s) mz ez lz Hmz) as H.
  by destruct (binary_round_aux _ _ _ _ _ _).
Qed.

(** ** Small integers convert exactly *)

Lemma digits2_pos_shift (p k : positive) :
  digits2_pos (Pos.iter xO p k) = (digits2_pos p + k)%positive.
Proof.
  induction k as [|k IH] using Pos.peano_ind.
  - simpl. by rewrite Pos.add_1_r.
  - rewrite Pos.iter_succ. simpl. rewrite IH. by rewrite Pos.add_succ_r.
Qed.

Lemma digits2_pos_lower (p : positive) :
  (2 ^ (Zpos (digits2_pos p) - 1) ≤ Zpos p)%Z.
Proof.
  induction p as [p IH|p IH|]; simpl digits2_pos; [| |done];
    rewrite Pos2Z.inj_succ;
    replace (Z.succ (Zpos (digits2_pos p)) - 1)%Z
      with (Z.succ (Zpos (digits2_pos p) - 1)) by lia;
    rewrite Z.pow_succ_r by lia; lia.
Qed.

Lemma digits2_pos_small (p : positive) :
  (Zpos p < 2 ^ 53)%Z → (Zpos (digits2_pos p) ≤ 53)%Z.
Proof.
  intros Hp. pose proof (digits2_pos_lower p) as Hd.
  destruct (Z.le_gt_cases (Zpos (digits2_pos p)) 53) as [|Hgt]; [done|].
  assert (2 ^ 53 ≤ 2 ^ (Zpos (digits2_pos p) - 1))%Z
    by (apply Z.pow_le_mono_r; lia).
  lia.
Qed.

Lemma binary_round_aux_exact (s : bool) (m : positive) (e : Z) :
  digits2_pos m = 53%positive → (-1074 ≤ e ≤ 971)%Z →
  binary_round_aux 53 1024 s (Zpos m) e loc_Exact = S754_finite s m e.
Proof.
  intros Hd He.
  assert (Hshift : (fexp 53 1024 (Zdigits2 (Zpos m) + e) - e = 0)%Z).
  { simpl Zdigits2. rewrite Hd. unfold fexp, emin. lia. }
  unfold binary_round_aux, shr_fexp. rewrite Hshift. simpl.
  rewrite Hd.
  replace (fexp 53 1024 (53 + e) - e)%Z with 0%Z by (unfold fexp, emin; lia).
  simpl. destruct (Z.leb_spec e (1024 - 53)); [done|lia].
Qed.

Lemma of_Z_small (p : positive) :
  (Zpos p < 2 ^ 53)%Z → ∃ m e, F64.of_Z (Zpos p) = S754_finite false m e.
Proof.
  intros Hp. apply digits2_pos_small in Hp.
  unfold F64.of_Z, binary_normalize, binary_round.
  assert (Hf : fexp 53 1024 (Zpos (digits2_pos p) + 0)
               = (Zpos (digits2_pos p) - 53)%Z).
  { unfold fexp, emin. lia. }
  rewrite Hf. unfold shl_align. rewrite Z.sub_0_r.
  destruct (Zpos (digits2_pos p) - 53)%Z as [|q|q] eqn:E; [|lia|].
  - rewrite binary_round_aux_exact; [eauto| |lia].
    apply (inj Zpos). lia.
  - rewrite binary_round_aux_exact; [eauto| |lia].
    rewrite digits2_pos_shift. apply (inj Zpos). rewrite Pos2Z.inj_add. lia.
Qed.

(** ** Whole numbers add exactly *)













(** ** The shape of NumPy's summation *)

Lemma pairwise_sum_O (a : list float64) :
  np.pairwise_sum O a =
    if length a <? 8 then fold_left F64.add a F64.zero else np.block_sum a.
Proof. simpl. by destruct (length a <? 8), (length a <=? 128). Qed.

Lemma pairwise_sum_S (fuel : nat) (a : list float64) :
  np.pairwise_sum (S fuel) a =
    if length a <? 8 then fold_left F64.add a F64.zero
    else if length a <=? 128 then np.block_sum a
    else F64.add
           (np.pairwise_sum fuel (take (length a / 2 - (length a / 2) mod 8) a))
           (np.pairwise_sum fuel (drop (length a / 2 - (length a / 2) mod 8) a)).
Proof. reflexivity. Qed.

(** The length of the array is fuel enough. *)
Lemma pairwise_sum_fuel (f1 : nat) : ∀ (f2 : nat) (a : list float64),
  length a ≤ f1 → length a ≤ f2 → np.pairwise_sum f1 a = np.pairwise_sum f2 a.
Proof.
  induction f1 as [|f1 IH]; intros f2 a H1 H2.
  - destruct a; [|simpl in H1; lia]. by destruct f2.
  - destruct f2 as [|f2].
    { destruct a; [done|simpl in H2; lia]. }
    rewrite !pairwise_sum_S. destruct (length a <? 8) eqn:E8; [done|].
    destruct (length a <=? 128) eqn:E128; [done|].
    apply Nat.leb_gt in E128.
    pose proof (Nat.div_mod_eq (length a) 2) as Hd.
    pose proof (Nat.mod_upper_bound (length a) 2 ltac:(done)) as Hm.
    pose proof (Nat.mod_upper_bound (length a / 2) 8 ltac:(done)) as Hm8.
    rewrite (IH f2 (take _ a)), (IH f2 (drop _ a)); [done|..];
      rewrite ?length_take, ?length_drop; lia.
Qed.

Section Summation.
Variable R : float64 → Z → Prop.
Hypothesis R_zero : R F64.zero 0.
Hypothesis R_add : ∀ x y u v, R x u → R y v → R (F64.add x y) (u + v).

Lemma total_app (ks ks' : list Z) : total (ks ++ ks') = (total ks + total ks')%Z.
Proof. induction ks as [|k ks IH]; simpl; lia. Qed.

Lemma total_take_drop (n : nat) (ks : list Z) :
  (total (take n ks) + total (drop n ks))%Z = total ks.
Proof. by rewrite <- total_app, take_drop. Qed.

Lemma fold_left_sum (a : list float64) : ∀ ks acc k,
  R acc k → Forall2 R a ks → R (fold_left F64.add a acc) (k + total ks).
Proof.
  induction a as [|x a IH]; intros ks acc k Hacc Ha.
  - apply Forall2_nil_inv_l in Ha as ->. simpl. by rewrite Z.add_0_r.
  - apply Forall2_cons_inv_l in Ha as (k' & ks' & Hx & Ha & ->).
    simpl. rewrite Z.add_assoc. apply IH; [|done]. by apply R_add.
Qed.

Lemma zip_with_sum (r b : list float64) : ∀ kr kb,
  Forall2 R r kr → Forall2 R b kb → length r = length b →
  Forall2 R (zip_with F64.add r b) (zip_with Z.add kr kb)
  ∧ total (zip_with Z.add kr kb) = (total kr + total kb)%Z.
Proof.
  revert b. induction r as [|x r IH]; intros b kr kb Hr Hb Hlen.
  - destruct b; [|done].
    apply Forall2_nil_inv_l in Hr as ->. by apply Forall2_nil_inv_l in Hb as ->.
  - destruct b as [|y b]; [done|].
    apply Forall2_cons_inv_l in Hr as (u & kr' & Hx & Hr & ->).
    apply Forall2_cons_inv_l in Hb as (v & kb' & Hy & Hb & ->).
    destruct (IH b kr' kb' Hr Hb) as [IH1 IH2]; [by injection Hlen|].
    simpl. split; [constructor; [by apply R_add|done]|lia].
Qed.

Lemma add_lanes_sum (groups : nat) : ∀ r a kr ka,
  Forall2 R r kr → Forall2 R a ka → length r = 8 → 8 * groups ≤ length a →
  ∃ kr' krest,
    Forall2 R (fst (np.add_lanes groups r a)) kr'
    ∧ Forall2 R (snd (np.add_lanes groups r a)) krest
    ∧ length (fst (np.add_lanes groups r a)) = 8
    ∧ (total kr' + total krest)%Z = (total kr + total ka)%Z.
Proof.
  induction groups as [|g IH]; intros r a kr ka Hr Ha Hlen Hg; simpl.
  - by exists kr, ka.
  - destruct (zip_with_sum r (take 8 a) kr (take 8 ka)) as [Hz Ht];
      [done|by apply Forall2_take|rewrite length_take; lia|].
    destruct (IH (zip_with F64.add r (take 8 a)) (drop 8 a)
                 (zip_with Z.add kr (take 8 ka)) (drop 8 ka))
      as (kr' & krest & H1 & H2 & H3 & H4);
      [done|by apply Forall2_drop| |rewrite length_drop; lia|].
    { rewrite length_zip_with, length_take. lia. }
    exists kr', krest. do 3 (split; [done|]).
    rewrite H4, Ht. pose proof (total_take_drop 8 ka). lia.
Qed.

Lemma fold_lanes_sum (r : list float64) (kr : list Z) :
  Forall2 R r kr → length r = 8 → R (np.fold_lanes r) (total kr).
Proof.
  intros Hr Hlen.
  destruct r as [|r0 [|r1 [|r2 [|r3 [|r4 [|r5 [|r6 [|r7 [|? ?]]]]]]]]]; try done.
  repeat match goal with
         | H : Forall2 _ (_ :: _) _ |- _ =>
             apply Forall2_cons_inv_l in H as (? & ? & ? & H & ->)
         end.
  apply Forall2_nil_inv_l in Hr as ->.
  match goal with |- R ?t ?k =>
    assert (∃ k', R t k' ∧ k' = k) as (k' & Hk & <-); [|done] end.
  eexists. split; [simpl; repeat apply R_add; eassumption|]. simpl. lia.
Qed.

Lemma block_sum_sum (a : list float64) (ka : list Z) :
  Forall2 R a ka → 8 ≤ length a → R (np.block_sum a) (total ka).
Proof.
  intros Ha Hlen. unfold np.block_sum.
  pose proof (Nat.div_mod_eq (length a) 8) as Hd.
  destruct (add_lanes_sum (length a / 8 - 1) (take 8 a) (drop 8 a)
              (take 8 ka) (drop 8 ka)) as (kr & krest & H1 & H2 & H3 & H4);
    [by apply Forall2_take|by apply Forall2_drop|rewrite length_take; lia
    |rewrite length_drop; lia|].
  destruct (np.add_lanes _ _ _) as [r rest]. simpl in *.
  rewrite <- (total_take_drop 8 ka), <- H4.
  apply fold_left_sum; [|done]. by apply fold_lanes_sum.
Qed.

Lemma pairwise_sum_sum (fuel : nat) : ∀ (a : list float64) (ka : list Z),
  Forall2 R a ka → R (np.pairwise_sum fuel a) (total ka).
Proof.
  induction fuel as [|fuel IH]; intros a ka Ha.
  - rewrite pairwise_sum_O. destruct (Nat.ltb_spec (length a) 8).
    + rewrite <- (Z.add_0_l (total ka)). by apply fold_left_sum.
    + by apply block_sum_sum.
  - rewrite pairwise_sum_S. destruct (Nat.ltb_spec (length a) 8).
    + rewrite <- (Z.add_0_l (total ka)). by apply fold_left_sum.
    + destruct (length a <=? 128); [by apply block_sum_sum|].
      rewrite <- (total_take_drop (length a / 2 - (length a / 2) mod 8) ka).
      apply R_add; apply IH; (by apply Forall2_take) || (by apply Forall2_drop).
Qed.

Lemma sum_sum (a : list float64) (ka : list Z) :
  Forall2 R a ka → R (np.sum a) (total ka).
Proof.
  intros Ha. unfold np.sum. rewrite <- (Z.add_0_l (total ka)).
  apply R_add; [done|]. by apply pairwise_sum_sum.
Qed.

End Summation.

(** ** Sums of frequencies *)

Lemma binary_round_aux_nonneg (m e : Z) (l : location) :
  (0 ≤ m)%Z → nonneg (binary_round_aux 53 1024 false m e l) = true.
Proof.
  intros H. unfold binary_round_aux.
  pose proof (shr_fexp_nonneg 53 1024 m e l H) as H1.
  destruct (shr_fexp 53 1024 m e l) as [mrs' e']. simpl in H1.
  pose proof (shr_fexp_nonneg 53 1024 _ e' loc_Exact
                (round_nearest_even_nonneg _ (loc_of_shr_record mrs') H1)) as H2.
  destruct (shr_fexp 53 1024 _ e' loc_Exact) as [mrs'' e'']. simpl in H2.
  destruct (shr_m mrs''); try lia; try done.
  by destruct (_ <=? _)%Z.
Qed.

Lemma add_nonneg (x y : float64) :
  nonneg x = true → nonneg y = true → nonneg (F64.add x y) = true.
Proof.
  destruct x as [sx|[]| |[] mx ex], y as [sy|[]| |[] my ey]; try done.
  - by destruct sx, sy.
  - intros _ _. unfold F64.add, SFadd, binary_normalize. simpl cond_Zopp.
    rewrite <- Pos2Z.inj_add. unfold binary_round.
    destruct (shl_align _ _ _). by apply binary_round_aux_nonneg.
Qed.

Lemma nonneg_number (x : float64) : nonneg x = true → F64.is_nan x = false.
Proof. by destruct x. Qed.

Lemma sum_nonneg (a : list float64) :
  Forall (λ x, nonneg x = true) a → nonneg (np.sum a) = true.
Proof.
  intros Ha.
  apply (sum_sum (λ x _, nonneg x = true) eq_refl
           (λ x y _ _, add_nonneg x y) a ((λ _, 0%Z) <$> a)).
  apply Forall2_fmap_r, Forall_Forall2_diag.
  by eapply Forall_impl.
Qed.



(** ** The mean that skips NaN entries *)







Lemma count_valid_filter (a : list float64) : ∀ c,
  fold_left (λ c x, if np.isnan x then c else (c + 1)%Z) a c =
  (c + Z.of_nat (length (filter (λ x, is_number x) a)))%Z.
Proof.
  induction a as [|x a IH]; intros c; simpl; [lia|].
  rewrite filter_cons, IH. destruct (decide (is_number x)) as [Hx|Hx].
  - rewrite Hx. simpl length. lia.
  - apply not_false_is_true in Hx. by rewrite Hx.
Qed.

Lemma nanmean_unfold (a : list float64) :
  np.nanmean a =
    F64.div (np.sum (map (λ x, if np.isnan x then F64.zero else x) a))
      (F64.of_Z (Z.of_nat (length (filter (λ x, is_number x) a)))).
Proof.
  unfold np.nanmean, np.count_valid. by rewrite count_valid_filter, Z.add_0_l.
Qed.



Lemma nanmean_number (f0 : list float64) :
  forallb nan_or_nonneg f0 = true →
  (Z.of_nat (length f0) < 2 ^ 53)%Z →
  existsb (λ x, negb (np.isnan x)) f0 = true →
  np.isnan (np.nanmean f0) = false.
Proof.
  intros Hhz Hlen Hex. apply existsb_exists in Hex as (x & Hx & Hnum).
  apply negb_true_iff in Hnum.
  assert (x ∈ filter (λ x, is_number x) f0) as Hin.
  { apply list_elem_of_filter. split; [done|]. by apply list_elem_of_In. }
  rewrite nanmean_unfold.
  pose proof (length_filter (λ x, is_number x) f0) as Hle.
  destruct (filter (λ x, is_number x) f0) as [|y l] eqn:Ef;
    [by apply elem_of_nil in Hin|].
  destruct (Z.of_nat (length (y :: l))) as [|p|p] eqn:Ep; [done| |lia].
  destruct (of_Z_small p) as (m & e & ->); [simpl in *; lia|].
  unfold np.isnan. apply div_not_nan, nonneg_number, sum_nonneg.
  apply Forall_fmap, Forall_forall. intros z Hz. simpl.
  apply list_elem_of_In in Hz.
  pose proof (proj1 (forallb_forall _ _) Hhz z Hz) as Hzz.
  unfold nan_or_nonneg, np.isnan in *. destruct (F64.is_nan z); [done|exact Hzz].
Qed.


(** ** The mean of a pitch track *)











(** 200 Hz, an unvoiced frame and 100 Hz average to 150 Hz. *)
Example nanmean_skips_unvoiced :
  np.nanmean (hz <$> steady_frames) = F64.of_Z 150.
Proof. by vm_compute. Qed.

(** Without the restriction to frequencies, finite entries of both signs
    can average to NaN. *)
Example nanmean_opposite_lanes :
  Forall (λ x, is_number x ∧ F64.is_inf x = false) opposite_lanes
  ∧ np.isnan (np.nanmean opposite_lanes) = true.
Proof. split; [by repeat constructor|by vm_compute]. Qed.

(** ** Running the script *)

Ltac unfold_script :=
  unfold app, results_tab, record_tab, audiorecorder, sidebar, estimate_mean_pitch,
    try_except_Exception, ss_get, ss_set, ss_pop, ss_contains, lift, raise,
    mbind, script_bind, mret, script_ret in *.

Lemma estimate_mean_pitch_run (L : Libs) (data : ndarray) (fs : Z)
    (ss : gmap string pyval) :
  estimate_mean_pitch L data fs ss =
    (ss, match librosa_yin L data 50 500 fs with
         | Return f0 => Return (np.nanmean f0)
         | Raise e => if isinstance_Exception e then Return F64.nan else Raise e
         end).
Proof.
  unfold_script. destruct (librosa_yin L data 50 500 fs) as [f0|e]; [done|].
  by destruct (isinstance_Exception e).
Qed.

Lemma results_tab_run (L : Libs) (t : pyval) (wav : AudioSegment) (b : bool)
    (ss : gmap string pyval) (data : ndarray) (fs : Z) :
  is_Some (ss !! "gender_sample") → truthy wav = true →
  sf_read L (seg_wav wav) = Return (data, fs) →
  results_tab L t wav b ss =
    match snd (estimate_mean_pitch L data fs ss) with
    | Raise e => (ss, Raise e)
    | Return mean_pitch =>
        match classify mean_pitch t with
        | Raise e => (ss, Raise e)
        | Return Undetermined => (ss, Return CouldNotDetect)
        | Return gender =>
            if b then (delete "gender_sample" ss, Raise RerunException)
            else (ss, Return (Metrics mean_pitch gender t))
        end
    end.
Proof.
  intros Hkey Hwav Hread. rewrite estimate_mean_pitch_run. simpl.
  unfold results_tab, mbind, script_bind, ss_contains.
  rewrite bool_decide_eq_true_2 by done. rewrite Hwav. simpl.
  rewrite Hread, estimate_mean_pitch_run.
  destruct (librosa_yin L data 50 500 fs) as [f0|e];
    [|destruct (isinstance_Exception e); [|done]].
  all: destruct (classify _ t) as [[]|]; try done.
  all: by destruct b.
Qed.

Lemma results_tab_metrics (L : Libs) (t : pyval) (wav : AudioSegment) (b : bool)
    (ss ss' : gmap string pyval) (mp : float64) (g : Label) (t' : pyval) :
  results_tab L t wav b ss = (ss', Return (Metrics mp g t')) →
  t' = t ∧ classify mp t = Return g ∧ g ≠ Undetermined.
Proof.
  unfold_script.
  destruct (negb _ || negb _); [done|].
  destruct (sf_read L (seg_wav wav)) as [[data fs]|e]; [|done].
  destruct (librosa_yin L data 50 500 fs) as [f0|e];
    [|destruct (isinstance_Exception e); [|done]].
  all: destruct (classify _ t) as [[]|] eqn:Hc; try done.
  all: destruct b; simpl; try done.
  all: intros [= <- <- <- <-]; done.
Qed.

Lemma results_tab_threshold (L : Libs) (t : pyval) (wav : AudioSegment) (b : bool)
    (ss : gmap string pyval) :
  fst (results_tab L t wav b ss) !! "threshold" = ss !! "threshold".
Proof.
  unfold_script.
  destruct (negb _ || negb _); [done|].
  destruct (sf_read L (seg_wav wav)) as [[data fs]|e]; [|done].
  destruct (librosa_yin L data 50 500 fs) as [f0|e];
    [|destruct (isinstance_Exception e); [|done]].
  all: destruct (classify _ t) as [[]|]; try done.
  all: destruct b; simpl; try done; by rewrite lookup_delete_ne.
Qed.

(** ** The threshold across reruns *)

Lemma slider_in_range (v : Z) (ui : option Z) :
  (50 ≤ v ≤ 300)%Z →
  ∃ n, st.slider (PyInt 50) (PyInt 300) (PyInt v) (PyInt 1) ui = Return (PyInt n)
       ∧ (50 ≤ n ≤ 300)%Z ∧ (ui = None → n = v).
Proof.
  intros Hv. destruct ui as [u|]; simpl.
  - eexists. split; [done|]. rewrite Z.div_1_r. split; [lia|done].
  - by exists v.
Qed.

Lemma sidebar_run (ui : option Z) (ss : gmap string pyval) :
  threshold_ok ss →
  ∃ n, sidebar ui ss = (<["threshold" := PyInt n]> ss, Return (PyInt n))
       ∧ (50 ≤ n ≤ 300)%Z
       ∧ (ui = None →
          n = match ss !! "threshold" with Some (PyInt v) => v | _ => 165%Z end).
Proof.
  unfold threshold_ok. intros Hss. unfold_script.
  destruct (ss !! "threshold") as [[v| |]|] eqn:E; cbn -[st.slider] in *; try done.
  - destruct (slider_in_range v ui Hss) as (n & -> & Hn & Hui). by exists n.
  - destruct (slider_in_range 165 ui ltac:(lia)) as (n & -> & Hn & Hui). by exists n.
Qed.

Lemma app_run (L : Libs) (inp : Inputs) (ss : gmap string pyval) :
  threshold_ok ss →
  ∃ n, snd (sidebar (slider_ui inp) ss) = Return (PyInt n)
       ∧ (50 ≤ n ≤ 300)%Z
       ∧ (slider_ui inp = None →
          n = match ss !! "threshold" with Some (PyInt v) => v | _ => 165%Z end)
       ∧ fst (app L inp ss) !! "threshold" = Some (PyInt n)
       ∧ app L inp ss =
           results_tab L (PyInt n) (recorded inp) (button_clicked inp)
             (<["gender_sample" := PySegment (recorded inp)]>
                (<["threshold" := PyInt n]> ss)).
Proof.
  intros Hss. destruct (sidebar_run (slider_ui inp) ss Hss) as (n & Hside & Hn & Hui).
  exists n. rewrite Hside. do 3 (split; [done|]).
  assert (app L inp ss =
           results_tab L (PyInt n) (recorded inp) (button_clicked inp)
             (<["gender_sample" := PySegment (recorded inp)]>
                (<["threshold" := PyInt n]> ss))) as Happ.
  { unfold app. unfold mbind at 1. unfold script_bind at 1. by rewrite Hside. }
  split; [|done]. rewrite Happ, results_tab_threshold.
  rewrite lookup_insert_ne by done. by rewrite lookup_insert_eq.
Qed.

Lemma session_threshold_ok (L : Libs) (history : list Inputs) :
  threshold_ok (session L history).
Proof.
  induction history as [|inp earlier IH]; simpl; [done|].
  destruct (app_run L inp _ IH) as (n & _ & Hn & _ & Hlook & _).
  unfold threshold_ok. by rewrite Hlook.
Qed.

Lemma session_untouched (L : Libs) (history : list Inputs) :
  Forall (λ i, slider_ui i = None) history →
  match session L history !! "threshold" with
  | Some (PyInt v) => v = 165%Z
  | _ => True
  end.
Proof.
  induction 1 as [|inp earlier Hinp _ IH]; simpl; [done|].
  destruct (app_run L inp _ (session_threshold_ok L earlier))
    as (n & _ & _ & Hui & -> & _).
  rewrite (Hui Hinp). by destruct (session L earlier !! "threshold") as [[]|].
Qed.

(** ** Failures of the pitch tracker *)

(** Whatever leaves the guarded estimation as an exception is not an
    [Exception]: only an interrupt or an exit request can pass. *)
Lemma estimation_escapes_only_base (L : Libs) (data : ndarray) (fs : Z)
    (ss : gmap string pyval) (e : exn) :
  snd (estimate_mean_pitch L data fs ss) = Raise e → isinstance_Exception e = false.
Proof.
  rewrite estimate_mean_pitch_run. simpl.
  destruct (librosa_yin L data 50 500 fs) as [f0|e']; [done|].
  destruct (isinstance_Exception e') eqn:He'; [done|]. by intros [= <-].
Qed.

(** The "could not detect pitch" state is reached in two ways only: the
    tracker failed with an [Exception], or the track it returned averages to
    NaN. The script has no check of its own on the length or the energy of
    the buffer. *)
Lemma could_not_detect_iff (L : Libs) (ss : gmap string pyval) (n : Z)
    (wav : AudioSegment) (data : ndarray) (fs : Z) :
  is_Some (ss !! "gender_sample") → truthy wav = true →
  sf_read L (seg_wav wav) = Return (data, fs) →
  snd (results_tab L (PyInt n) wav false ss) = Return CouldNotDetect
  ↔ (∃ e, librosa_yin L data 50 500 fs = Raise e ∧ isinstance_Exception e = true)
    ∨ (∃ f0, librosa_yin L data 50 500 fs = Return f0
             ∧ np.isnan (np.nanmean f0) = true).
Proof.
  intros Hkey Hwav Hread.
  rewrite (results_tab_run L (PyInt n) wav false ss data fs Hkey Hwav Hread).
  rewrite estimate_mean_pitch_run. simpl.
  destruct (librosa_yin L data 50 500 fs) as [f0|e].
  - destruct (np.isnan (np.nanmean f0)) eqn:Hnan.
    + unfold classify. rewrite Hnan. split; [|done]. intros _. right. by exists f0.
    + unfold np.isnan in Hnan. rewrite (classify_number _ _ Hnan). split.
      * by destruct (F64.cmp_int _ _) as [[]|].
      * intros [(e & [=] & _)|(f & [= <-] & Hf)].
        unfold np.isnan in Hf. congruence.
  - destruct (isinstance_Exception e) eqn:He.
    + split; [|done]. intros _. left. by exists e.
    + split; [done|]. intros [(e' & [= <-] & He')|(f & [=] & _)]. congruence.
Qed.

(** C3: for every buffer, when the pitch tracker fails with an exception of
    class [Exception], the guarded estimation does not raise: it returns NaN
    and leaves the session untouched, and the Results tab then shows the
    "could not detect pitch" state, whatever the threshold. *)
Theorem estimation_failure_degrades (L : Libs) (data : ndarray) (fs : Z)
    (ss : gmap string pyval) (e : exn) (threshold : pyval) (wav : AudioSegment)
    (button : bool) :
  librosa_yin L data 50 500 fs = Raise e →
  isinstance_Exception e = true →
  is_Some (ss !! "gender_sample") →
  truthy wav = true →
  sf_read L (seg_wav wav) = Return (data, fs) →
  estimate_mean_pitch L data fs ss = (ss, Return F64.nan)
  ∧ results_tab L threshold wav button ss = (ss, Return CouldNotDetect).
Proof.
  intros Hyin He Hkey Hwav Hread.
  assert (estimate_mean_pitch L data fs ss = (ss, Return F64.nan)) as Hest.
  { rewrite estimate_mean_pitch_run. by rewrite Hyin, He. }
  split; [done|].
  rewrite (results_tab_run L threshold wav button ss data fs Hkey Hwav Hread).
  by rewrite Hest.
Qed.

Lemma estimation_failure_degrades_witness :
  estimate_mean_pitch failing_libs (Array1 [F64.zero]) 44100
      {["gender_sample" := PySegment sample]}
    = ({["gender_sample" := PySegment sample]}, Return F64.nan)
  ∧ results_tab failing_libs (PyInt 165) sample false
      {["gender_sample" := PySegment sample]}
    = ({["gender_sample" := PySegment sample]}, Return CouldNotDetect).
Proof.
  apply (estimation_failure_degrades failing_libs (Array1 [F64.zero]) 44100
           {["gender_sample" := PySegment sample]} ZeroDivisionError);
    try reflexivity.
  exists (PySegment sample). reflexivity.
Defined.

(** An interrupt is not an [Exception] and passes through the guard. *)
Example interrupt_passes :
  snd (estimate_mean_pitch
         {| sf_read := sf_read failing_libs;
            librosa_yin := λ _ _ _ _, Raise KeyboardInterrupt |}
         (Array1 [F64.zero]) 44100 ∅) = Raise KeyboardInterrupt.
Proof. reflexivity. Qed.

(** ** Channels *)

(** C7 fails on the script: the one-frame stereo buffer (1, 3) downmixes to
    the mono buffer (2), but the tracker is handed the two-dimensional array
    as decoded: the probe answers 400 (two dimensions), where it answers 100
    for the downmixed buffer. *)
Lemma stereo_not_downmixed :
  downmix stereo_frame = Array1 [F64.of_Z 2]
  ∧ snd (app shape_probe fresh_run ∅)
      = Return (Metrics (F64.of_Z 400) Female (PyInt 165))
  ∧ snd (estimate_mean_pitch shape_probe stereo_frame 44100 ∅)
      = Return (F64.of_Z 400)
  ∧ snd (estimate_mean_pitch shape_probe (downmix stereo_frame) 44100 ∅)
      = Return (F64.of_Z 100).
Proof. by vm_compute. Qed.

(** C7, amended: for every input, mono or stereo, the array [sf.read]
    decodes is handed to the pitch tracker as it is, with no downmix: the
    result of the run is the one computed from the tracker's answer on that
    very array. *)
Theorem decoded_array_passed_unchanged (L : Libs) (history : list Inputs)
    (inp : Inputs) (data : ndarray) (fs : Z) (f0 : list float64) :
  truthy (recorded inp) = true →
  button_clicked inp = false →
  sf_read L (seg_wav (recorded inp)) = Return (data, fs) →
  librosa_yin L data 50 500 fs = Return f0 →
  ∃ n, snd (sidebar (slider_ui inp) (session L history)) = Return (PyInt n)
       ∧ snd (app L inp (session L history)) =
           match classify (np.nanmean f0) (PyInt n) with
           | Return Undetermined => Return CouldNotDetect
           | Return gender => Return (Metrics (np.nanmean f0) gender (PyInt n))
           | Raise e => Raise e
           end.
Proof.
  intros Hwav Hbutton Hread Hyin.
  destruct (app_run L inp _ (session_threshold_ok L history))
    as (n & Hside & _ & _ & _ & ->).
  exists n. split; [done|].
  rewrite (results_tab_run _ _ _ _ _ data fs); [|by rewrite lookup_insert_eq|done..].
  rewrite estimate_mean_pitch_run, Hyin, Hbutton. simpl.
  by destruct (classify (np.nanmean f0) (PyInt n)) as [[]|].
Qed.

Lemma decoded_array_passed_unchanged_witness :
  ∃ n, snd (sidebar (slider_ui fresh_run) (session shape_probe [moved_run]))
         = Return (PyInt n)
       ∧ snd (app shape_probe fresh_run (session shape_probe [moved_run])) =
           match classify (np.nanmean [F64.of_Z 400]) (PyInt n) with
           | Return Undetermined => Return CouldNotDetect
           | Return gender =>
               Return (Metrics (np.nanmean [F64.of_Z 400]) gender (PyInt n))
           | Raise e => Raise e
           end.
Proof.
  apply (decoded_array_passed_unchanged shape_probe [moved_run] fresh_run
           stereo_frame 44100 [F64.of_Z 400]); reflexivity.
Defined.

(** ** The threshold *)

(** C9: in every run of a session, the threshold the sidebar reads is an
    integer between 50 and 300; it is 165 as long as the slider has never
    been moved; and it is the threshold a prediction was compared with. *)
Theorem threshold_bounds (L : Libs) (history : list Inputs) (inp : Inputs) :
  ∃ n : Z,
    snd (sidebar (slider_ui inp) (session L history)) = Return (PyInt n)
    ∧ (50 ≤ n ≤ 300)%Z
    ∧ (Forall (λ i, slider_ui i = None) (inp :: history) → n = 165%Z)
    ∧ (∀ ss' mean_pitch gender threshold,
         app L inp (session L history)
           = (ss', Return (Metrics mean_pitch gender threshold)) →
         threshold = PyInt n ∧ classify mean_pitch (PyInt n) = Return gender).
Proof.
  destruct (app_run L inp _ (session_threshold_ok L history))
    as (n & Hside & Hn & Hui & _ & Happ).
  exists n. do 2 (split; [done|]). split.
  - intros Hall. apply Forall_cons in Hall as [Hinp Hearlier].
    rewrite (Hui Hinp). pose proof (session_untouched L history Hearlier) as H.
    by destruct (session L history !! "threshold") as [[]|].
  - intros ss' mp g t Hrun. rewrite Happ in Hrun.
    by apply results_tab_metrics in Hrun as (-> & Hc & _).
Qed.

Lemma threshold_bounds_witness :
  ∃ n : Z,
    snd (sidebar (slider_ui fresh_run) (session steady_libs [fresh_run]))
      = Return (PyInt n)
    ∧ (50 ≤ n ≤ 300)%Z
    ∧ (Forall (λ i, slider_ui i = None) [fresh_run; fresh_run] → n = 165%Z)
    ∧ (∀ ss' mean_pitch gender threshold,
         app steady_libs fresh_run (session steady_libs [fresh_run])
           = (ss', Return (Metrics mean_pitch gender threshold)) →
         threshold = PyInt n ∧ classify mean_pitch (PyInt n) = Return gender).
Proof.
  exact (threshold_bounds steady_libs [fresh_run] fresh_run).
Defined.

(** A first run with the slider untouched compares with 165; a run after
    the slider was moved to 120 compares with 120. *)
Example threshold_runs :
  snd (app steady_libs fresh_run ∅)
    = Return (Metrics (F64.of_Z 150) Male (PyInt 165))
  ∧ snd (app steady_libs fresh_run (session steady_libs [moved_run]))
    = Return (Metrics (F64.of_Z 150) Female (PyInt 120)).
Proof. by vm_compute. Qed.

(** C10: whenever a prediction is shown, the threshold it was compared with
    is a Python int (never a float), the same the sidebar returned and
    stored, and the comparison is the exact one of a float with an int. *)
Theorem threshold_is_integer (L : Libs) (history : list Inputs) (inp : Inputs)
    (ss' : gmap string pyval) (mean_pitch : float64) (gender : Label)
    (threshold : pyval) :
  app L inp (session L history)
    = (ss', Return (Metrics mean_pitch gender threshold)) →
  ∃ n : Z,
    threshold = PyInt n
    ∧ snd (sidebar (slider_ui inp) (session L history)) = Return (PyInt n)
    ∧ ss' !! "threshold" = Some (PyInt n)
    ∧ gender = match F64.cmp_int mean_pitch n with
               | Some Gt => Female
               | _ => Male
               end.
Proof.
  intros Hrun.
  destruct (app_run L inp _ (session_threshold_ok L history))
    as (n & Hside & _ & _ & Hlook & Happ).
  rewrite Hrun in Hlook. simpl in Hlook.
  rewrite Happ in Hrun. apply results_tab_metrics in Hrun as (-> & Hc & Hg).
  exists n. do 3 (split; [done|]).
  destruct (F64.is_nan mean_pitch) eqn:Hnan.
  - unfold classify, np.isnan in Hc. rewrite Hnan in Hc. by inversion Hc.
  - rewrite (classify_number _ _ Hnan) in Hc. by inversion Hc.
Qed.

Lemma threshold_is_integer_witness :
  ∃ n : Z,
    PyInt 120 = PyInt n
    ∧ snd (sidebar (slider_ui fresh_run) (session steady_libs [moved_run]))
        = Return (PyInt n)
    ∧ fst (app steady_libs fresh_run (session steady_libs [moved_run]))
        !! "threshold" = Some (PyInt n)
    ∧ Female = match F64.cmp_int (F64.of_Z 150) n with
               | Some Gt => Female
               | _ => Male
               end.
Proof.
  apply (threshold_is_integer steady_libs [moved_run] fresh_run).
  reflexivity.
Defined.

(** * Further properties of the script *)

(** ** The outcome of a run *)

Lemma results_tab_cases (L : Libs) (n : Z) (wav : AudioSegment) (b : bool)
    (ss : gmap string pyval) :
  is_Some (ss !! "gender_sample") →
  results_tab L (PyInt n) wav b ss =
    if truthy wav then
      match sf_read L (seg_wav wav) with
      | Raise e => (ss, Raise e)
      | Return (data, fs) =>
          match snd (estimate_mean_pitch L data fs ss) with
          | Raise e => (ss, Raise e)
          | Return mean_pitch =>
              if np.isnan mean_pitch then (ss, Return CouldNotDetect)
              else if b then (delete "gender_sample" ss, Raise RerunException)
              else (ss, Return (Metrics mean_pitch
                                  (match F64.cmp_int mean_pitch n with
                                   | Some Gt => Female
                                   | _ => Male
                                   end) (PyInt n)))
          end
      end
    else (ss, Return NoRecording).
Proof.
  intros Hkey. destruct (truthy wav) eqn:Hwav.
  - destruct (sf_read L (seg_wav wav)) as [[data fs]|e] eqn:Hread.
    + rewrite (results_tab_run L (PyInt n) wav b ss data fs Hkey Hwav Hread).
      destruct (snd (estimate_mean_pitch L data fs ss)) as [mp|e]; [|done].
      destruct (np.isnan mp) eqn:Hnan.
      * unfold classify. by rewrite Hnan.
      * unfold np.isnan in Hnan. rewrite (classify_number _ _ Hnan).
        by destruct (F64.cmp_int mp n) as [[]|].
    + unfold results_tab, mbind, script_bind, ss_contains, lift.
      rewrite bool_decide_eq_true_2 by done. rewrite Hwav. simpl.
      by rewrite Hread.
  - unfold results_tab, mbind, script_bind, ss_contains.
    rewrite Hwav. by rewrite orb_true_r.
Qed.

Lemma slider_value (v : Z) (ui : option Z) :
  (50 ≤ v ≤ 300)%Z →
  st.slider (PyInt 50) (PyInt 300) (PyInt v) (PyInt 1) ui =
    Return (PyInt (match ui with Some u => Z.max 50 (Z.min 300 u) | None => v end)).
Proof.
  intros Hv. destruct ui as [u|]; simpl; [|done].
  do 2 f_equal. rewrite Z.div_1_r. lia.
Qed.

Lemma sidebar_value (ui : option Z) (ss : gmap string pyval) :
  threshold_ok ss →
  sidebar ui ss =
    (<["threshold" := PyInt (chosen_threshold ui ss)]> ss,
     Return (PyInt (chosen_threshold ui ss)))
  ∧ (50 ≤ chosen_threshold ui ss ≤ 300)%Z.
Proof.
  unfold threshold_ok, chosen_threshold. intros Hss. unfold_script.
  destruct (ss !! "threshold") as [[v| |]|] eqn:E; cbn -[st.slider]; try done.
  - rewrite (slider_value v ui Hss). destruct ui; (split; [done|lia]).
  - rewrite (slider_value 165 ui ltac:(lia)). destruct ui; (split; [done|lia]).
Qed.

(** The run from a session state whose threshold the sidebar stored. *)
Lemma app_cases (L : Libs) (inp : Inputs) (ss : gmap string pyval) :
  threshold_ok ss →
  app L inp ss =
    results_tab L (PyInt (chosen_threshold (slider_ui inp) ss)) (recorded inp)
      (button_clicked inp)
      (<["gender_sample" := PySegment (recorded inp)]>
         (<["threshold" := PyInt (chosen_threshold (slider_ui inp) ss)]> ss)).
Proof.
  intros Hss. destruct (sidebar_value (slider_ui inp) ss Hss) as [Hside _].
  unfold app. unfold mbind at 1. unfold script_bind at 1. by rewrite Hside.
Qed.

Lemma app_outcome (L : Libs) (history : list Inputs) (inp : Inputs) :
  app L inp (session L history) =
    let ss := registered inp (session L history) in
    let n := chosen_threshold (slider_ui inp) (session L history) in
    if truthy (recorded inp) then
      match sf_read L (seg_wav (recorded inp)) with
      | Raise e => (ss, Raise e)
      | Return (data, fs) =>
          match snd (estimate_mean_pitch L data fs ss) with
          | Raise e => (ss, Raise e)
          | Return mean_pitch =>
              if np.isnan mean_pitch then (ss, Return CouldNotDetect)
              else if button_clicked inp
                   then (delete "gender_sample" ss, Raise RerunException)
              else (ss, Return (Metrics mean_pitch
                                  (match F64.cmp_int mean_pitch n with
                                   | Some Gt => Female
                                   | _ => Male
                                   end) (PyInt n)))
          end
      end
    else (ss, Return NoRecording).
Proof.
  rewrite (app_cases L inp _ (session_threshold_ok L history)).
  rewrite results_tab_cases; [done|].
  rewrite lookup_insert_eq. by eexists.
Qed.

(** X1: while nothing has been recorded (the recording is empty), a run
    shows the hint to record first and neither decodes nor analyses
    anything, whatever the libraries would do; the session state holds the
    threshold and the recorder's value. *)
Theorem no_recording_no_analysis (L : Libs) (history : list Inputs) (inp : Inputs) :
  truthy (recorded inp) = false →
  app L inp (session L history)
    = (registered inp (session L history), Return NoRecording).
Proof. intros Hwav. rewrite app_outcome. simpl. by rewrite Hwav. Qed.

Lemma no_recording_no_analysis_witness :
  app broken_decoder_libs idle_run (session broken_decoder_libs [moved_run])
    = (registered idle_run (session broken_decoder_libs [moved_run]),
       Return NoRecording).
Proof.
  apply (no_recording_no_analysis broken_decoder_libs [moved_run] idle_run).
  reflexivity.
Defined.

(** X2: the decoder runs outside the guard: when [sf.read] raises, the run
    ends with that very exception, of class [Exception] or not, after the
    sidebar and the recorder have written to the session. *)
Theorem decoder_failure_escapes (L : Libs) (history : list Inputs) (inp : Inputs)
    (e : exn) :
  truthy (recorded inp) = true →
  sf_read L (seg_wav (recorded inp)) = Raise e →
  app L inp (session L history) = (registered inp (session L history), Raise e).
Proof. intros Hwav Hread. rewrite app_outcome. simpl. by rewrite Hwav, Hread. Qed.

Lemma decoder_failure_escapes_witness :
  app broken_decoder_libs fresh_run (session broken_decoder_libs [moved_run])
    = (registered fresh_run (session broken_decoder_libs [moved_run]),
       Raise LibsndfileError).
Proof.
  apply (decoder_failure_escapes broken_decoder_libs [moved_run] fresh_run
           LibsndfileError); reflexivity.
Defined.

Lemma app_stores_threshold (L : Libs) (history : list Inputs) (inp : Inputs) :
  fst (app L inp (session L history)) !! "threshold"
    = Some (PyInt (chosen_threshold (slider_ui inp) (session L history))).
Proof.
  rewrite (app_cases L inp _ (session_threshold_ok L history)).
  rewrite results_tab_threshold.
  rewrite lookup_insert_ne by done. by rewrite lookup_insert_eq.
Qed.

(** X4: when a prediction is available and "Record Another Sample" was
    clicked, the run ends with the rerun signal, the recording is removed
    from the session and the threshold stays stored. *)
Theorem record_another_sample (L : Libs) (history : list Inputs) (inp : Inputs)
    (data : ndarray) (fs : Z) (f0 : list float64) :
  truthy (recorded inp) = true →
  sf_read L (seg_wav (recorded inp)) = Return (data, fs) →
  librosa_yin L data 50 500 fs = Return f0 →
  np.isnan (np.nanmean f0) = false →
  button_clicked inp = true →
  snd (app L inp (session L history)) = Raise RerunException
  ∧ fst (app L inp (session L history)) !! "gender_sample" = None
  ∧ fst (app L inp (session L history)) !! "threshold"
      = Some (PyInt (chosen_threshold (slider_ui inp) (session L history))).
Proof.
  intros Hwav Hread Hyin Hnan Hb.
  split; [|split; [|apply app_stores_threshold]].
  all: rewrite app_outcome; simpl.
  all: rewrite Hwav, Hread, estimate_mean_pitch_run, Hyin; simpl.
  all: rewrite Hnan, Hb; simpl.
  - done.
  - by rewrite lookup_delete_eq.
Qed.

Lemma record_another_sample_witness :
  snd (app steady_libs click_run (session steady_libs [moved_run]))
    = Raise RerunException
  ∧ fst (app steady_libs click_run (session steady_libs [moved_run]))
      !! "gender_sample" = None
  ∧ fst (app steady_libs click_run (session steady_libs [moved_run]))
      !! "threshold"
      = Some (PyInt (chosen_threshold (slider_ui click_run)
                       (session steady_libs [moved_run]))).
Proof.
  apply (record_another_sample steady_libs [moved_run] click_run
           (Array1 [F64.zero]) 44100 [F64.of_Z 200; F64.nan; F64.of_Z 100]);
    reflexivity.
Defined.

Lemma recording_state (L : Libs) (history : list Inputs) (inp : Inputs) :
  fst (app L inp (session L history)) = registered inp (session L history)
  ∨ fst (app L inp (session L history))
      = delete "gender_sample" (registered inp (session L history)).
Proof.
  rewrite app_outcome. simpl.
  destruct (truthy (recorded inp)); [|by left].
  destruct (sf_read L (seg_wav (recorded inp))) as [[data fs]|e]; [|by left].
  destruct (snd (estimate_mean_pitch L data fs _)) as [mp|e]; [|by left].
  destruct (np.isnan mp); [by left|].
  destruct (button_clicked inp); [by right|by left].
Qed.

(** X5: a run leaves the session as the sidebar and the recorder wrote it,
    except when the button was clicked on a prediction: then, and only
    then, the recording is removed, and the run ends with the rerun
    signal. *)
Theorem recording_kept_unless_rerun (L : Libs) (history : list Inputs)
    (inp : Inputs) :
  (fst (app L inp (session L history)) !! "gender_sample" = None
   ↔ button_clicked inp = true
     ∧ truthy (recorded inp) = true
     ∧ ∃ data fs f0,
         sf_read L (seg_wav (recorded inp)) = Return (data, fs)
         ∧ librosa_yin L data 50 500 fs = Return f0
         ∧ np.isnan (np.nanmean f0) = false)
  ∧ (fst (app L inp (session L history)) !! "gender_sample" = None →
     app L inp (session L history)
       = (delete "gender_sample" (registered inp (session L history)),
          Raise RerunException))
  ∧ (fst (app L inp (session L history)) !! "gender_sample" ≠ None →
     fst (app L inp (session L history)) = registered inp (session L history)).
Proof.
  rewrite app_outcome. cbv zeta.
  assert (registered inp (session L history) !! "gender_sample" ≠ None) as Hreg.
  { unfold registered. by rewrite lookup_insert_eq. }
  destruct (truthy (recorded inp)) eqn:Hwav.
  2:{ simpl. split; [split; [done|by intros (_ & [=] & _)]|by split]. }
  destruct (sf_read L (seg_wav (recorded inp))) as [[data fs]|e] eqn:Hread.
  2:{ simpl. split; [split; [done|by intros (_ & _ & ? & ? & ? & [=] & _)]|by split]. }
  rewrite estimate_mean_pitch_run.
  destruct (librosa_yin L data 50 500 fs) as [f0|e] eqn:Hyin; simpl.
  - destruct (np.isnan (np.nanmean f0)) eqn:Hnan; simpl.
    { split; [split; [done|]|by split].
      intros (_ & _ & d & r & f & [= <- <-] & Hf & Hn). congruence. }
    destruct (button_clicked inp) eqn:Hb; simpl.
    + rewrite lookup_delete_eq. split; [split|by split]; [|done].
      intros _. do 2 (split; [done|]). by exists data, fs, f0.
    + split; [split; [done|by intros [[=] _]]|by split].
  - destruct (isinstance_Exception e); simpl.
    all: split; [split; [done|]|by split].
    all: intros (_ & _ & d & r & f & [= <- <-] & Hf & _); congruence.
Qed.

Lemma recording_kept_unless_rerun_witness :
  app steady_libs click_run (session steady_libs [moved_run])
    = (delete "gender_sample"
         (registered click_run (session steady_libs [moved_run])),
       Raise RerunException)
  ∧ fst (app steady_libs moved_run (session steady_libs [fresh_run]))
      = registered moved_run (session steady_libs [fresh_run]).
Proof.
  destruct (recording_kept_unless_rerun steady_libs [moved_run] click_run)
    as (H1 & H2 & _).
  destruct (recording_kept_unless_rerun steady_libs [fresh_run] moved_run)
    as (_ & _ & H3).
  split.
  - apply H2, H1. do 2 (split; [reflexivity|]).
    exists (Array1 [F64.zero]), 44100%Z, [F64.of_Z 200; F64.nan; F64.of_Z 100].
    repeat split; reflexivity.
  - apply H3. vm_compute. discriminate.
Defined.

(** X6: the threshold persists across reruns: a run in which the slider is
    not moved works with the threshold of the run before it. *)
Theorem threshold_persists (L : Libs) (history : list Inputs) (prev inp : Inputs) :
  slider_ui inp = None →
  snd (sidebar (slider_ui inp) (session L (prev :: history)))
    = snd (sidebar (slider_ui prev) (session L history)).
Proof.
  intros Hui.
  destruct (sidebar_value (slider_ui inp) _ (session_threshold_ok L (prev :: history)))
    as [-> _].
  destruct (sidebar_value (slider_ui prev) _ (session_threshold_ok L history))
    as [-> _].
  simpl. do 2 f_equal. rewrite Hui. unfold chosen_threshold at 1.
  by rewrite app_stores_threshold.
Qed.

Lemma threshold_persists_witness :
  snd (sidebar (slider_ui fresh_run) (session steady_libs [moved_run; fresh_run]))
    = snd (sidebar (slider_ui moved_run) (session steady_libs [fresh_run])).
Proof.
  apply (threshold_persists steady_libs [fresh_run] moved_run fresh_run).
  reflexivity.
Defined.

(** ** Monotonicity of the label *)

Lemma cmp_int_Gt_down (x : float64) (t t' : Z) :
  F64.cmp_int x t = Some Gt → (t' ≤ t)%Z → F64.cmp_int x t' = Some Gt.
Proof.
  destruct x as [s|s| |s m e]; unfold F64.cmp_int; try done.
  - intros H Ht. apply (inj Some) in H. f_equal.
    apply Z.compare_gt_iff in H. apply Z.compare_gt_iff. lia.
  - destruct (Z.leb_spec 0 e) as [He|He]; intros H Ht; apply (inj Some) in H;
      f_equal;
      apply Z.compare_gt_iff in H; apply Z.compare_gt_iff; [lia|].
    assert (0 < 2 ^ (- e))%Z by (apply Z.pow_pos_nonneg; lia). nia.
Qed.

(** X8: lowering the threshold never turns Female into another label, and
    raising it never turns Male into another label. *)
Theorem label_monotone_in_threshold (mean_pitch : float64) (t t' : Z) :
  (t' ≤ t)%Z →
  (classify mean_pitch (PyInt t) = Return Female →
   classify mean_pitch (PyInt t') = Return Female)
  ∧ (classify mean_pitch (PyInt t') = Return Male →
     classify mean_pitch (PyInt t) = Return Male).
Proof.
  intros Ht. destruct (F64.is_nan mean_pitch) eqn:Hnan.
  - unfold classify, np.isnan. rewrite Hnan. by split.
  - rewrite !(classify_number _ _ Hnan).
    destruct (F64.cmp_int mean_pitch t) as [[]|] eqn:Hc; split; try done.
    all: by rewrite (cmp_int_Gt_down _ _ _ Hc Ht).
Qed.

Lemma label_monotone_in_threshold_witness :
  (classify (F64.of_Z 150) (PyInt 120) = Return Female →
   classify (F64.of_Z 150) (PyInt 100) = Return Female)
  ∧ (classify (F64.of_Z 150) (PyInt 100) = Return Male →
     classify (F64.of_Z 150) (PyInt 120) = Return Male).
Proof.
  apply (label_monotone_in_threshold (F64.of_Z 150) 120 100). lia.
Defined.

(** X9: at a fixed threshold, a finite mean pitch at least as high as one
    classified Female is classified Female. *)
Theorem label_monotone_in_pitch (x y : float64) (t : Z) :
  F64.is_nan x = false → F64.is_inf x = false →
  F64.is_nan y = false → F64.is_inf y = false →
  (F64.to_Q x <= F64.to_Q y)%Q →
  classify x (PyInt t) = Return Female → classify y (PyInt t) = Return Female.
Proof.
  intros Hx Hx' Hy Hy' Hle.
  rewrite (classify_number _ _ Hx), (classify_number _ _ Hy).
  rewrite (cmp_int_Qcompare _ _ Hx Hx'), (cmp_int_Qcompare _ _ Hy Hy').
  destruct (F64.to_Q x ?= inject_Z t)%Q eqn:Hc; try done. intros _.
  apply Qgt_alt in Hc.
  assert (inject_Z t < F64.to_Q y)%Q as H by (eapply Qlt_le_trans; eauto).
  apply Qgt_alt in H. by rewrite H.
Qed.

Lemma label_monotone_in_pitch_witness :
  classify (F64.of_Z 200) (PyInt 165) = Return Female.
Proof.
  apply (label_monotone_in_pitch (F64.of_Z 170) (F64.of_Z 200) 165);
    reflexivity || (vm_compute; discriminate).
Defined.

(** ** What a session holds *)

(** X10: the script writes two keys only: in every session the state
    holds nothing but ["threshold"] and ["gender_sample"]. *)
Theorem session_keys (L : Libs) (history : list Inputs) :
  dom (session L history) ⊆ {["threshold"; "gender_sample"]}.
Proof.
  induction history as [|inp earlier IH]; simpl; [set_solver|].
  rewrite (app_cases L inp _ (session_threshold_ok L earlier)).
  set (t := PyInt _). set (ss := <["gender_sample" := _]> _).
  assert (dom ss ⊆ {["threshold"; "gender_sample"]}) as Hss.
  { subst ss. rewrite !dom_insert_L. set_unfold.
    intros x [->|[->|Hx]]; [by right|by left|by apply IH]. }
  assert (fst (results_tab L t (recorded inp) (button_clicked inp) ss) = ss
          ∨ fst (results_tab L t (recorded inp) (button_clicked inp) ss)
            = delete "gender_sample" ss) as [->| ->].
  { unfold_script. destruct (negb _ || negb _); [by left|].
    destruct (sf_read L _) as [[data fs]|e]; [|by left].
    destruct (librosa_yin L data 50 500 fs) as [f0|e];
      [|destruct (isinstance_Exception e); [|by left]].
    all: destruct (classify _ t) as [[]|]; try by left.
    all: destruct (button_clicked inp); simpl; (by left) || (by right). }
  - done.
  - rewrite dom_delete_L. set_unfold. intros x [Hx _]. by apply Hss.
Qed.

(** X11: reruns are idempotent: running the script again on the same
    widget inputs gives the same outcome and the same session state. *)
Theorem rerun_idempotent (L : Libs) (history : list Inputs) (inp : Inputs) :
  app L inp (session L (inp :: history)) = app L inp (session L history).
Proof.
  assert (chosen_threshold (slider_ui inp) (session L (inp :: history))
          = chosen_threshold (slider_ui inp) (session L history)) as Hn.
  { unfold chosen_threshold at 1. destruct (slider_ui inp) as [u|] eqn:Hui; [done|].
    simpl session. rewrite app_stores_threshold. by rewrite Hui. }
  assert (registered inp (session L (inp :: history))
          = registered inp (session L history)) as Hss.
  { unfold registered at 1. rewrite Hn. simpl session.
    destruct (recording_state L history inp) as [->| ->]; unfold registered.
    all: apply map_eq; intros k.
    all: destruct (decide (k = "gender_sample")) as [->|];
      [|destruct (decide (k = "threshold")) as [->|]]; by simplify_map_eq. }
  rewrite (app_outcome L (inp :: history)), (app_outcome L history).
  cbv zeta. by rewrite Hn, Hss.
Qed.

(** ** From the pitch track to the view *)

(** X12: when the tracker returns a track of NaN and non-negative entries
    with at least one entry that is not NaN, the run shows a prediction,
    with the mean of the track and the threshold of the run, never the
    "could not detect pitch" state. *)
Theorem voiced_frame_gives_prediction (L : Libs) (history : list Inputs)
    (inp : Inputs) (data : ndarray) (fs : Z) (f0 : list float64) :
  truthy (recorded inp) = true →
  button_clicked inp = false →
  sf_read L (seg_wav (recorded inp)) = Return (data, fs) →
  librosa_yin L data 50 500 fs = Return f0 →
  forallb nan_or_nonneg f0 = true →
  (Z.of_nat (length f0) < 2 ^ 53)%Z →
  existsb (λ x, negb (np.isnan x)) f0 = true →
  ∃ gender,
    snd (app L inp (session L history))
      = Return (Metrics (np.nanmean f0) gender
                  (PyInt (chosen_threshold (slider_ui inp) (session L history))))
    ∧ gender ≠ Undetermined.
Proof.
  intros Hwav Hb Hread Hyin Hhz Hlen Hex.
  pose proof (nanmean_number f0 Hhz Hlen Hex) as Hnan.
  rewrite app_outcome. cbv zeta.
  rewrite Hwav, Hread, estimate_mean_pitch_run, Hyin. simpl. rewrite Hnan, Hb.
  eexists. split; [done|]. by destruct (F64.cmp_int _ _) as [[]|].
Qed.

Lemma voiced_frame_gives_prediction_witness :
  ∃ gender,
    snd (app steady_libs moved_run (session steady_libs [fresh_run]))
      = Return (Metrics (np.nanmean [F64.of_Z 200; F64.nan; F64.of_Z 100]) gender
                  (PyInt (chosen_threshold (slider_ui moved_run)
                            (session steady_libs [fresh_run]))))
    ∧ gender ≠ Undetermined.
Proof.
  apply (voiced_frame_gives_prediction steady_libs [fresh_run] moved_run
           (Array1 [F64.zero]) 44100); reflexivity.
Defined.

(** X13: on a decodable recording the run ends in the "could not detect
    pitch" state exactly when the tracker raised an [Exception] or returned
    a track whose mean is NaN; the button does not matter. *)
Theorem undetected_iff_tracker (L : Libs) (history : list Inputs) (inp : Inputs)
    (data : ndarray) (fs : Z) :
  truthy (recorded inp) = true →
  sf_read L (seg_wav (recorded inp)) = Return (data, fs) →
  snd (app L inp (session L history)) = Return CouldNotDetect
  ↔ (∃ e, librosa_yin L data 50 500 fs = Raise e ∧ isinstance_Exception e = true)
    ∨ (∃ f0, librosa_yin L data 50 500 fs = Return f0
             ∧ np.isnan (np.nanmean f0) = true).
Proof.
  intros Hwav Hread. rewrite app_outcome. cbv zeta.
  rewrite Hwav, Hread, estimate_mean_pitch_run. simpl.
  destruct (librosa_yin L data 50 500 fs) as [f0|e].
  - destruct (np.isnan (np.nanmean f0)) eqn:Hnan.
    + split; [|done]. intros _. right. by exists f0.
    + split.
      * by destruct (button_clicked inp).
      * intros [(e & [=] & _)|(f & [= <-] & Hf)]. congruence.
  - destruct (isinstance_Exception e) eqn:He.
    + split; [|done]. intros _. left. by exists e.
    + split; [done|]. intros [(e' & [= <-] & He')|(f & [=] & _)]. congruence.
Qed.

Lemma undetected_iff_tracker_witness :
  snd (app failing_libs click_run (session failing_libs [moved_run]))
    = Return CouldNotDetect
  ↔ (∃ e, librosa_yin failing_libs (Array1 [F64.zero]) 50 500 44100 = Raise e
          ∧ isinstance_Exception e = true)
    ∨ (∃ f0, librosa_yin failing_libs (Array1 [F64.zero]) 50 500 44100 = Return f0
             ∧ np.isnan (np.nanmean f0) = true).
Proof.
  apply (undetected_iff_tracker failing_libs [moved_run] click_run
           (Array1 [F64.zero]) 44100); reflexivity.
Defined.

(** X14: the slider changes the label only: two runs on the same recording
    in any two sessions, at any two slider positions, show the same mean
    pitch, or both the same state without a pitch, or fail alike. *)
Theorem pitch_independent_of_slider (L : Libs) (history1 history2 : list Inputs)
    (inp1 inp2 : Inputs) :
  recorded inp1 = recorded inp2 →
  button_clicked inp1 = false →
  button_clicked inp2 = false →
  match snd (app L inp1 (session L history1)),
        snd (app L inp2 (session L history2)) with
  | Return (Metrics mean_pitch1 _ _), Return (Metrics mean_pitch2 _ _) =>
      mean_pitch1 = mean_pitch2
  | Return NoRecording, Return NoRecording => True
  | Return CouldNotDetect, Return CouldNotDetect => True
  | Raise e1, Raise e2 => e1 = e2
  | _, _ => False
  end.
Proof.
  intros Hrec Hb1 Hb2. rewrite !app_outcome. cbv zeta.
  rewrite <- Hrec, Hb1, Hb2.
  destruct (truthy (recorded inp1)); [|done].
  destruct (sf_read L (seg_wav (recorded inp1))) as [[data fs]|e]; [|done].
  rewrite !estimate_mean_pitch_run. simpl.
  destruct (match librosa_yin L data 50 500 fs with
            | Return f0 => Return (np.nanmean f0)
            | Raise e => if isinstance_Exception e then Return F64.nan else Raise e
            end) as [mp|e]; [|done].
  by destruct (np.isnan mp).
Qed.

Lemma pitch_independent_of_slider_witness :
  match snd (app steady_libs fresh_run (session steady_libs [])),
        snd (app steady_libs moved_run (session steady_libs [fresh_run])) with
  | Return (Metrics mean_pitch1 _ _), Return (Metrics mean_pitch2 _ _) =>
      mean_pitch1 = mean_pitch2
  | Return NoRecording, Return NoRecording => True
  | Return CouldNotDetect, Return CouldNotDetect => True
  | Raise e1, Raise e2 => e1 = e2
  | _, _ => False
  end.
Proof.
  apply (pitch_independent_of_slider steady_libs [] [fresh_run] fresh_run moved_run);
    reflexivity.
Defined.

(** X15: the script asks the tracker for the range 50 to 500 Hz only: two
    library sets that agree on the decoder and on the tracker at that range
    give the same runs and the same sessions. *)
Theorem tracker_called_with_fixed_range (L1 L2 : Libs) :
  (∀ wav, sf_read L1 wav = sf_read L2 wav) →
  (∀ y sr, librosa_yin L1 y 50 500 sr = librosa_yin L2 y 50 500 sr) →
  ∀ history inp,
    app L1 inp (session L1 history) = app L2 inp (session L2 history).
Proof.
  intros Hread Hyin.
  assert (∀ inp ss, app L1 inp ss = app L2 inp ss) as Happ.
  { intros inp ss. unfold_script.
    destruct (st.slider _ _ _ _ _) as [t|e]; [|done]. simpl.
    destruct (negb _ || negb _); [done|].
    rewrite Hread. destruct (sf_read L2 _) as [[data fs]|e]; [|done].
    by rewrite Hyin. }
  intros history inp. rewrite Happ. f_equal.
  induction history as [|i earlier IH]; simpl; [done|].
  by rewrite Happ, IH.
Qed.

Lemma tracker_called_with_fixed_range_witness :
  app steady_libs fresh_run (session steady_libs [moved_run])
    = app picky_libs fresh_run (session picky_libs [moved_run]).
Proof.
  apply (tracker_called_with_fixed_range steady_libs picky_libs);
    intros; reflexivity.
Defined.
